(** * Submission intake service (main.py): a shallow embedding

    The service is one FastAPI application with a single route,
    [POST /submit], one SQLAlchemy model ([Submission], SQLite table
    [submission]) and two exception handlers.  The handler validates the
    three fields of the request model, stores one row, writes the code
    text to [codes/{id}.py] and answers with the generated id.

    The embedding keeps the durable state explicit (the table, the files
    under [codes/], and a ghost history of the effects performed), runs
    the handler in a small state-and-exception monad, and takes what the
    program reads from outside (the clock, whether the database and the
    directory are usable, what the platform codec can encode) from an
    environment record. *)

From stdpp Require Import gmap strings list pretty.

Local Open Scope string_scope.
Local Open Scope Z_scope.
Local Open Scope list_scope.

(** ** Data model *)

(** [class Submission(Base)]: one row of table [submission].  The id is the
    integer primary key; timestamps are readings of [datetime.utcnow]. *)
Module Submission.
Record t : Type := mk
  { id : Z;
    username : string;
    password : string;
    created_at : Z;
    updated_at : Z;
    status : string }.
End Submission.

(** [class SubmissionCreate(BaseModel)]: three required [str] fields. *)
Module SubmissionCreate.
Record t : Type := mk
  { username : string;
    password : string;
    code : string }.
Definition fields : list string := ["username"; "password"; "code"].
(** Request-model validation, as the framework runs it on the JSON body
    before the handler is called: every field is required.  The result is
    the model instance, or the names of the missing fields. *)
Definition validate (body : gmap string string) : list string + t :=
  match body !! "username", body !! "password", body !! "code" with
  | Some u, Some p, Some c => inr (mk u p c)
  | _, _, _ => inl (filter (λ f, body !! f = None) fields)
  end.
End SubmissionCreate.

(** Python values that occur in response dictionaries. *)
Inductive PyVal : Type :=
| PyNone
| PyInt (n : Z)
| PyStr (s : string).

Definition PyDict : Type := list (string * PyVal).

(** Exceptions raised in the program or by the calls it makes. *)
Inductive Exn : Type :=
| HTTPException (status_code : Z) (detail : string)
| OperationalError            (* the database call failed *)
| InvalidRequestError         (* refresh of an object that is not persistent *)
| OSError                     (* open() failed *)
| UnicodeEncodeError          (* write() could not encode the text *)
| TypeError.                  (* a value that is not a response was sent *)

(** Effects on durable state, in the order they happened (ghost state). *)
Inductive Event : Type :=
| Committed (id : Z)
| Opened (path : string)
| Wrote (path : string) (text : string)
| Closed (path : string).

#[global] Instance Event_eq_dec : EqDecision Event.
Proof. solve_decision. Defined.

(** The durable state: the table, the files under [codes/], the history. *)
Record World : Type := mkWorld
  { table : list Submission.t;
    files : gmap string string;
    history : list Event }.

Definition init_world : World := mkWorld [] ∅ [].

(** What a request finds outside the program. *)
Record Env : Type := mkEnv
  { utcnow_created : Z;          (* utcnow() called for created_at *)
    utcnow_updated : Z;          (* utcnow() called for updated_at *)
    db_up : bool;                (* the database accepts the commit *)
    dir_writable : bool;         (* codes/ exists and is writable *)
    encodable : string → bool }. (* the platform codec can encode the text *)

(** ** The ORM session *)

(** An object tracked by a session: created by the constructor, staged by
    [db.add], inserted by the flush of [db.commit], reloaded by
    [db.refresh]. *)
Inductive ObjState : Type :=
| Transient (username password : string)
| Pending (username password : string)
| Persistent (row : Submission.t).

(** [SessionLocal()]: the objects of this session, addressed by position. *)
Definition Session : Type := list ObjState.
Definition SessionLocal : Session := [].

(** What a running handler works on. *)
Record Ctx : Type := mkCtx
  { world : World;
    db : Session }.

(** ** The handler monad: state and exceptions *)

Definition M (A : Type) : Type := Ctx → (Exn + A) * Ctx.

#[global] Instance M_ret : MRet M := λ A (a : A) c, (inr a, c).
#[global] Instance M_bind : MBind M := λ A B (k : A → M B) (m : M A) c,
  match m c with
  | (inl e, c') => (inl e, c')
  | (inr a, c') => k a c'
  end.

Definition raise {A : Type} (e : Exn) : M A := λ c, (inl e, c).

Definition log (e : Event) (w : World) : World :=
  mkWorld (table w) (files w) (history w ++ [e]).

(** ** Record store *)

(** SQLite gives a row inserted without a rowid one more than the largest
    rowid in the table, and 1 in an empty table.  (This is its rule as long
    as the largest rowid is below 2^63 - 1, the largest a rowid can be.) *)
Definition max_rowid (t : list Submission.t) : option Z :=
  foldr (λ r acc, Some (match acc with
                        | None => Submission.id r
                        | Some m => Z.max (Submission.id r) m
                        end)) None t.

Definition next_rowid (t : list Submission.t) : Z :=
  match max_rowid t with
  | None => 1
  | Some m => m + 1
  end.

(** [SELECT ... WHERE id = i]. *)
Definition select_by_id (i : Z) (t : list Submission.t) : option Submission.t :=
  List.find (λ r, bool_decide (Submission.id r = i)) t.

(** The INSERT of one staged object: the column defaults of the model
    supply [created_at], [updated_at] and [status]. *)
Definition insert_row (env : Env) (username password : string) (w : World)
  : Submission.t * World :=
  let row := Submission.mk (next_rowid (table w)) username password
               (utcnow_created env) (utcnow_updated env) "SUBMITTED" in
  (row, log (Committed (Submission.id row))
          (mkWorld (table w ++ [row]) (files w) (history w))).

(** The flush: every staged object is inserted, in the order it was added. *)
Fixpoint flush (env : Env) (s : Session) (w : World) : Session * World :=
  match s with
  | [] => ([], w)
  | Pending u p :: s' =>
      let '(row, w1) := insert_row env u p w in
      let '(s'', w2) := flush env s' w1 in
      (Persistent row :: s'', w2)
  | o :: s' =>
      let '(s'', w2) := flush env s' w in
      (o :: s'', w2)
  end.

(** [Submission(username=..., password=...)] *)
Definition Submission_new (username password : string) : M nat := λ c,
  (inr (List.length (db c)), mkCtx (world c) (db c ++ [Transient username password])).

(** [db.add(obj)] *)
Definition db_add (obj : nat) : M unit := λ c,
  match db c !! obj with
  | Some (Transient u p) => (inr tt, mkCtx (world c) (<[obj := Pending u p]> (db c)))
  | _ => (inr tt, c)
  end.

(** [db.commit()] *)
Definition db_commit (env : Env) : M unit := λ c,
  if db_up env then
    let '(s, w) := flush env (db c) (world c) in (inr tt, mkCtx w s)
  else (inl OperationalError, c).

(** [db.refresh(obj)] *)
Definition db_refresh (env : Env) (obj : nat) : M unit := λ c,
  match db c !! obj with
  | Some (Persistent row) =>
      if db_up env then
        match select_by_id (Submission.id row) (table (world c)) with
        | Some row' => (inr tt, mkCtx (world c) (<[obj := Persistent row']> (db c)))
        | None => (inl InvalidRequestError, c)
        end
      else (inl OperationalError, c)
  | _ => (inl InvalidRequestError, c)
  end.

(** [obj.id] *)
Definition get_id (obj : nat) : M (option Z) := λ c,
  match db c !! obj with
  | Some (Persistent row) => (inr (Some (Submission.id row)), c)
  | _ => (inr None, c)
  end.

(** ** Code blob writer *)

(** How an f-string renders the id. *)
Definition format_id (i : option Z) : string :=
  match i with
  | Some n => pretty n
  | None => "None"
  end.

(** [f"codes/{db_submission.id}.py"] *)
Definition code_path (i : option Z) : string :=
  "codes/" +:+ format_id i +:+ ".py".

(** [open(path, "w")]: creates or truncates the file. *)
Definition open_w (env : Env) (path : string) : M string := λ c,
  if dir_writable env then
    let w := world c in
    (inr path,
     mkCtx (log (Opened path) (mkWorld (table w) (<[path := ""]> (files w)) (history w)))
           (db c))
  else (inl OSError, c).

(** [code_file.write(text)]: appends at the end of what was written. *)
Definition file_write (env : Env) (code_file : string) (text : string) : M unit := λ c,
  if encodable env text then
    let w := world c in
    let old := default "" (files w !! code_file) in
    (inr tt,
     mkCtx (log (Wrote code_file text)
              (mkWorld (table w) (<[code_file := old +:+ text]> (files w)) (history w)))
           (db c))
  else (inl UnicodeEncodeError, c).

(** [with open(path, "w") as code_file: body]: the file is closed on the
    way out, also when the body raises. *)
Definition with_open_w {A : Type} (env : Env) (path : string) (body : string → M A)
  : M A := λ c,
  match open_w env path c with
  | (inl e, c') => (inl e, c')
  | (inr code_file, c') =>
      let '(r, c'') := body code_file c' in
      (r, mkCtx (log (Closed code_file) (world c'')) (db c''))
  end.

(** ** Submission endpoint *)

(** Truth value of a Python [str]: false exactly for the empty string. *)
Definition truthy (s : string) : bool :=
  match s with
  | EmptyString => false
  | String _ _ => true
  end.

(** [async def create_submission(submission, db)] *)
Definition create_submission (env : Env) (submission : SubmissionCreate.t)
  : M PyDict :=
  if negb (truthy (SubmissionCreate.username submission))
     || negb (truthy (SubmissionCreate.password submission))
     || negb (truthy (SubmissionCreate.code submission))
  then raise (HTTPException 400 "Missing required fields")
  else
    db_submission ← Submission_new (SubmissionCreate.username submission)
                                   (SubmissionCreate.password submission);
    db_add db_submission;;
    db_commit env;;
    db_refresh env db_submission;;
    i ← get_id db_submission;
    with_open_w env (code_path i)
      (λ code_file, file_write env code_file (SubmissionCreate.code submission));;
    i ← get_id db_submission;
    mret [("reservation_id", match i with Some n => PyInt n | None => PyNone end)].

(** ** The application: routing, request validation, exception handling *)

(** The body of a response.  The body of a request-validation error is a
    JSON document too, [{"detail": [...]}] with one entry per offending
    field; it is kept here as the names of the missing fields. *)
Inductive Body : Type :=
| JsonBody (d : PyDict)
| TextBody (s : string)
| ValidationErrors (missing : list string).

Record HttpResponse : Type := mkResponse
  { status_code : Z;
    content : Body }.

Definition JSONResponse (status : Z) (d : PyDict) : HttpResponse :=
  mkResponse status (JsonBody d).

(** What a handler can hand back to the framework. *)
Inductive PyObj : Type :=
| ADict (d : PyDict)
| AResponse (r : HttpResponse).

(** A request as the router classifies it: a POST to the one route of the
    application, or a request for which the router finds no route and
    raises [HTTPException(404)].  (Requests to the routes the framework
    adds by itself, requests with another method to an existing path and
    requests redirected for a trailing slash are neither.) *)
Inductive Inbound : Type :=
| PostSubmit (body : gmap string string)
| Unrouted (method path : string).

(** [@app.exception_handler(404)] *)
Definition custom_404_handler (request : Inbound) (exc : Exn) : PyObj :=
  ADict [("error", PyStr "Not Found")].

(** [@app.exception_handler(500)] *)
Definition custom_500_handler (request : Inbound) (exc : Exn) : PyObj :=
  ADict [("error", PyStr "Internal Server Error")].

(** The framework sends what an exception handler returns as it is: it has
    to be a response object.  A dictionary is not one, and sending it
    raises [TypeError].  (What a route function returns is different: the
    framework serialises it into a JSON response itself.) *)
Definition send (o : PyObj) : Exn + HttpResponse :=
  match o with
  | AResponse r => inr r
  | ADict _ => inl TypeError
  end.

(** The answer of the server when the application itself fails. *)
Definition server_fallback : HttpResponse :=
  mkResponse 500 (TextBody "Internal Server Error").

(** The outermost layer: any exception that is not an [HTTPException] ends
    here, and the handler registered for 500 is asked for the response. *)
Definition server_error (request : Inbound) (exc : Exn) : HttpResponse :=
  match send (custom_500_handler request exc) with
  | inr r => r
  | inl _ => server_fallback
  end.

(** The layer for [HTTPException]: the handler registered for the status
    code if there is one (only 404 here), else the default, which answers
    [{"detail": ...}] with the status of the exception. *)
Definition http_exception (request : Inbound) (status : Z) (detail : string)
  : HttpResponse :=
  if bool_decide (status = 404) then
    match send (custom_404_handler request (HTTPException status detail)) with
    | inr r => r
    | inl e => server_error request e
    end
  else JSONResponse status [("detail", PyStr detail)].

(** [def get_db()]: a session per request, closed when the request is done
    whatever the outcome; only the durable state survives it. *)
Definition get_db {A : Type} (handler : M A) (w : World) : (Exn + A) * World :=
  let '(r, c) := handler (mkCtx w SessionLocal) in (r, world c).

(** [@app.post("/submit", status_code=200)] and the rest of the dispatch. *)
Definition app (env : Env) (request : Inbound) (w : World) : HttpResponse * World :=
  match request with
  | PostSubmit body =>
      match SubmissionCreate.validate body with
      | inl missing => (mkResponse 422 (ValidationErrors missing), w)
      | inr submission =>
          match get_db (create_submission env submission) w with
          | (inr d, w') => (JSONResponse 200 d, w')
          | (inl (HTTPException status detail), w') =>
              (http_exception request status detail, w')
          | (inl e, w') => (server_error request e, w')
          end
      end
  | Unrouted _ _ => (http_exception request 404 "Not Found", w)
  end.

(** A run of the service: requests handled one after the other, each in
    the environment it finds. *)
Fixpoint run (reqs : list (Env * Inbound)) (w : World) : list HttpResponse * World :=
  match reqs with
  | [] => ([], w)
  | (env, request) :: reqs' =>
      let '(r, w1) := app env request w in
      let '(rs, w2) := run reqs' w1 in
      (r :: rs, w2)
  end.

(** * Vocabulary of the statements *)

(** ** Outcomes of an accepted submission *)

Definition new_row (env : Env) (s : SubmissionCreate.t) (w : World) : Submission.t :=
  Submission.mk (next_rowid (table w))
    (SubmissionCreate.username s) (SubmissionCreate.password s)
    (utcnow_created env) (utcnow_updated env) "SUBMITTED".

Definition new_path (w : World) : string := code_path (Some (next_rowid (table w))).

Definition reservation (w : World) : PyDict :=
  [("reservation_id", PyInt (next_rowid (table w)))].

Definition all_present (s : SubmissionCreate.t) : Prop :=
  SubmissionCreate.username s ≠ "" ∧ SubmissionCreate.password s ≠ ""
  ∧ SubmissionCreate.code s ≠ "".

(** The three states a submission that passed the check can leave behind:
    the row committed and nothing else; the row committed and the file
    created but empty; the row committed and the file holding the code. *)
Definition committed (env : Env) (s : SubmissionCreate.t) (w : World) : World :=
  mkWorld (table w ++ [new_row env s w]) (files w)
          (history w ++ [Committed (next_rowid (table w))]).

Definition truncated (env : Env) (s : SubmissionCreate.t) (w : World) : World :=
  mkWorld (table w ++ [new_row env s w]) (<[new_path w := ""]> (files w))
          (history w ++ [Committed (next_rowid (table w));
                         Opened (new_path w); Closed (new_path w)]).

Definition stored (env : Env) (s : SubmissionCreate.t) (w : World) : World :=
  mkWorld (table w ++ [new_row env s w])
          (<[new_path w := SubmissionCreate.code s]> (files w))
          (history w ++ [Committed (next_rowid (table w));
                         Opened (new_path w);
                         Wrote (new_path w) (SubmissionCreate.code s);
                         Closed (new_path w)]).

#[global] Instance all_present_dec s : Decision (all_present s).
Proof. unfold all_present. apply _. Defined.

(** ** Responses *)

Definition missing_fields_response : HttpResponse :=
  JSONResponse 400 [("detail", PyStr "Missing required fields")].

Definition ok_response (i : Z) : HttpResponse :=
  JSONResponse 200 [("reservation_id", PyInt i)].

(** ** Sample requests and environments *)

Definition quote : string := String (Ascii.ascii_of_nat 34) "".

(** A code text with a newline, quotes and non-ASCII characters. *)
Definition sample_code : string :=
  "print(" +:+ quote +:+ "héllo 한" +:+ quote +:+ ")
x = 1".

Definition sample_body : gmap string string :=
  {[ "username" := "alice"; "password" := "s3cret"; "code" := sample_code ]}.

Definition other_body : gmap string string :=
  {[ "username" := "bob"; "password" := "hunter2"; "code" := "print(2)" ]}.

Definition no_username_body : gmap string string :=
  {[ "password" := "s3cret"; "code" := "print(1)" ]}.

Definition empty_code_body : gmap string string :=
  {[ "username" := "alice"; "password" := "s3cret"; "code" := "" ]}.

Definition blank_body : gmap string string :=
  {[ "username" := " "; "password" := " "; "code" := " " ]}.

(** Everything works. *)
Definition nominal : Env := mkEnv 1000 1001 true true (λ _, true).
(** The directory [codes/] does not exist. *)
Definition no_directory : Env := mkEnv 1000 1001 true false (λ _, true).
(** The database is unavailable. *)
Definition db_down : Env := mkEnv 1000 1001 false true (λ _, true).

(** ** Invariants of the durable state *)

Definition files_tracked (w : World) : Prop :=
  ∀ p, is_Some (files w !! p) →
       ∃ r, r ∈ table w ∧ p = code_path (Some (Submission.id r)).

(** The column defaults of a row inserted in environment [env]. *)
Definition has_defaults (env : Env) (row : Submission.t) : Prop :=
  Submission.status row = "SUBMITTED"
  ∧ Submission.created_at row = utcnow_created env
  ∧ Submission.updated_at row = utcnow_updated env.

Definition is_write_to (p : string) (e : Event) : bool :=
  match e with
  | Wrote q _ => bool_decide (q = p)
  | _ => false
  end.

(** How many times the history writes to path [p]. *)
Definition writes_to (p : string) (h : list Event) : nat :=
  length (List.filter (is_write_to p) h).

(** Every write in the history comes after the commit of the row whose id
    names the file. *)
Definition commit_first (h : list Event) : Prop :=
  ∀ n p t, h !! n = Some (Wrote p t) →
    ∃ i m, (m < n)%nat ∧ h !! m = Some (Committed i) ∧ p = code_path (Some i).

(** Every commit in the history is the commit of a row of the table. *)
Definition commits_tracked (w : World) : Prop :=
  ∀ i, Committed i ∈ history w → ∃ r, r ∈ table w ∧ Submission.id r = i.

(** The three together are an invariant of the service. *)
Definition history_ok (w : World) : Prop :=
  commits_tracked w ∧ commit_first (history w)
  ∧ ∀ p, (writes_to p (history w) ≤ 1)%nat.

Ltac tail_events He :=
  repeat (apply elem_of_cons in He as [-> | He]);
  try (by apply elem_of_nil in He);
  (split; [done | by intros; simplify_eq]).

(** ** Whitespace *)

Fixpoint all_space (s : string) : bool :=
  match s with
  | EmptyString => true
  | String a s' => Ascii.is_space a && all_space s'
  end.

(** [str.isspace]: at least one character, and only whitespace. *)
Definition isspace (s : string) : bool :=
  match s with
  | EmptyString => false
  | String a s' => Ascii.is_space a && all_space s'
  end.

(** ** Ids of the table and the life of a file *)

Definition ids (w : World) : list Z := Submission.id <$> table w.

(** Every file opened in the history is closed: right away when the write
    raised, after the one write otherwise. *)
Definition closed_after_open (h : list Event) : Prop :=
  ∀ n p, h !! n = Some (Opened p) →
    h !! S n = Some (Closed p)
    ∨ ((∃ t, h !! S n = Some (Wrote p t)) ∧ h !! S (S n) = Some (Closed p)).

(** ** Paths the router knows *)

(** The paths with a route: those the framework adds by itself to an
    application created by [FastAPI(...)] with its defaults, and the one
    of the program. *)
Definition route_paths : list string :=
  ["/openapi.json"; "/docs"; "/docs/oauth2-redirect"; "/redoc"; "/submit"].

(** A path that no route path is a prefix of.  For such a path the router
    finds no route, whatever the method, and no redirect for a trailing
    slash applies: the request is answered through [HTTPException(404)]. *)
Definition matches_no_route (p : string) : bool :=
  forallb (λ r, negb (String.prefix r p)) route_paths.

(** * Properties *)

(** ** The record store generates fresh ids *)

Lemma max_rowid_ge t r :
  r ∈ t → ∃ m, max_rowid t = Some m ∧ Submission.id r ≤ m.
Proof.
  induction t as [|r' t IH]; intros Hin.
  - by apply elem_of_nil in Hin.
  - apply elem_of_cons in Hin as [-> | Hin]; simpl.
    + destruct (max_rowid t); eexists; split; [done | lia | done | lia].
    + destruct (IH Hin) as (m & -> & Hle). eexists; split; [done | lia].
Qed.

Lemma next_rowid_fresh t r : r ∈ t → Submission.id r < next_rowid t.
Proof.
  intros Hin. unfold next_rowid.
  destruct (max_rowid_ge t r Hin) as (m & -> & Hle). lia.
Qed.

Lemma select_by_id_app_fresh t row :
  Submission.id row = next_rowid t →
  select_by_id (next_rowid t) (t ++ [row]) = Some row.
Proof.
  intros Hid. rewrite <- Hid. unfold select_by_id.
  assert (Hold : ∀ r, r ∈ t → Submission.id r ≠ Submission.id row).
  { intros r Hr. apply next_rowid_fresh in Hr. lia. }
  clear Hid. induction t as [|r t IH]; simpl.
  - by rewrite bool_decide_eq_true_2.
  - rewrite bool_decide_eq_false_2 by (apply Hold; left).
    apply IH. intros r' Hr'. apply Hold. by right.
Qed.

(** ** The path of the code file determines the id *)

Lemma length_append (s t : string) :
  String.length (s +:+ t) = (String.length s + String.length t)%nat.
Proof. induction s as [|a s IH]; simpl; [done | by rewrite IH]. Qed.

Lemma append_suffix_inj (s1 s2 t : string) : s1 +:+ t = s2 +:+ t → s1 = s2.
Proof.
  revert s2. induction s1 as [|a s1 IH]; intros [|b s2] H.
  - done.
  - apply (f_equal String.length) in H.
    rewrite !length_append in H. simpl in H. lia.
  - apply (f_equal String.length) in H.
    rewrite !length_append in H. simpl in H. lia.
  - change (String a (s1 +:+ t) = String b (s2 +:+ t)) in H.
    injection H as -> H. f_equal. by apply IH.
Qed.

Lemma code_path_inj (i j : Z) : code_path (Some i) = code_path (Some j) → i = j.
Proof.
  unfold code_path, format_id. intros H.
  apply (inj (String.app "codes/")) in H.
  apply append_suffix_inj in H.
  by apply (inj pretty) in H.
Qed.

(** ** What the handler does on a request that passes the check *)

Lemma truthy_true s : s ≠ "" → truthy s = true.
Proof. by destruct s. Qed.

Lemma create_submission_accepted env s w :
  all_present s →
  get_db (create_submission env s) w =
    if negb (db_up env) then (inl OperationalError, w)
    else if negb (dir_writable env) then (inl OSError, committed env s w)
    else if negb (encodable env (SubmissionCreate.code s))
         then (inl UnicodeEncodeError, truncated env s w)
         else (inr (reservation w), stored env s w).
Proof.
  intros (Hu & Hp & Hc).
  unfold get_db, create_submission.
  rewrite !truthy_true by done. simpl.
  unfold mbind, M_bind, Submission_new, db_add, db_commit, db_refresh. simpl.
  destruct (db_up env); simpl; [|by destruct w].
  rewrite select_by_id_app_fresh by done.
  simpl. unfold with_open_w, open_w, file_write, new_path. simpl.
  destruct (dir_writable env); simpl; [|done].
  destruct (encodable env _); simpl.
  - rewrite lookup_insert_eq, insert_insert_eq. simpl.
    unfold log, stored; simpl. by rewrite <- !app_assoc.
  - unfold log, truncated; simpl. by rewrite <- !app_assoc.
Qed.

Lemma create_submission_rejected env s w :
  ¬ all_present s →
  get_db (create_submission env s) w =
    (inl (HTTPException 400 "Missing required fields"), w).
Proof.
  intros Hn. unfold get_db, create_submission.
  destruct s as [u p c]; simpl in *.
  destruct u, p, c; simpl; try (by destruct w).
  exfalso. apply Hn. by repeat split.
Qed.

(** ** What the application answers *)

Lemma app_invalid env body w missing :
  SubmissionCreate.validate body = inl missing →
  app env (PostSubmit body) w = (mkResponse 422 (ValidationErrors missing), w).
Proof. intros H. unfold app. by rewrite H. Qed.

Lemma app_rejected env body w s :
  SubmissionCreate.validate body = inr s → ¬ all_present s →
  app env (PostSubmit body) w = (missing_fields_response, w).
Proof.
  intros Hv Hn. unfold app. rewrite Hv.
  by rewrite create_submission_rejected.
Qed.

Lemma app_accepted env body w s :
  SubmissionCreate.validate body = inr s → all_present s →
  app env (PostSubmit body) w =
    if negb (db_up env) then (server_fallback, w)
    else if negb (dir_writable env) then (server_fallback, committed env s w)
    else if negb (encodable env (SubmissionCreate.code s))
         then (server_fallback, truncated env s w)
         else (ok_response (next_rowid (table w)), stored env s w).
Proof.
  intros Hv Ha. unfold app. rewrite Hv.
  rewrite create_submission_accepted by done.
  by destruct (db_up env), (dir_writable env), (encodable env _).
Qed.

Lemma validate_present (body : gmap string string) u p c :
  body !! "username" = Some u → body !! "password" = Some p →
  body !! "code" = Some c →
  SubmissionCreate.validate body = inr (SubmissionCreate.mk u p c).
Proof. intros Hu Hp Hc. unfold SubmissionCreate.validate. by rewrite Hu, Hp, Hc. Qed.

Lemma validate_inr (body : gmap string string) s :
  SubmissionCreate.validate body = inr s →
  body !! "username" = Some (SubmissionCreate.username s)
  ∧ body !! "password" = Some (SubmissionCreate.password s)
  ∧ body !! "code" = Some (SubmissionCreate.code s).
Proof.
  unfold SubmissionCreate.validate.
  destruct (body !! "username"), (body !! "password"), (body !! "code");
    intros H; by simplify_eq.
Qed.

Lemma validate_omitted (body : gmap string string) f :
  f ∈ SubmissionCreate.fields → body !! f = None →
  ∃ missing, SubmissionCreate.validate body = inl missing ∧ f ∈ missing.
Proof.
  intros Hf Hnone.
  exists (filter (λ f, body !! f = None) SubmissionCreate.fields). split.
  - unfold SubmissionCreate.validate, SubmissionCreate.fields in *.
    destruct (body !! "username") eqn:Hu, (body !! "password") eqn:Hp,
      (body !! "code") eqn:Hc; try done.
    exfalso.
    repeat (apply elem_of_cons in Hf as [-> | Hf]; [congruence|]).
    by apply elem_of_nil in Hf.
  - apply list_elem_of_filter. done.
Qed.

(** A storage failure: the commit raises, nothing is stored, and the
    answer is the 500 of the server. *)
Lemma storage_failure_leaves_nothing :
  app db_down (PostSubmit sample_body) init_world = (server_fallback, init_world).
Proof. by vm_compute. Qed.

(** ** C1: a submission with three non-empty fields *)

(** C1, as stated, fails: with the three fields non-empty but no writable
    directory [codes/] (the program never creates it), the answer is 500,
    not 200, and no file exists although the row was committed. *)
Lemma submit_without_directory_is_500 :
  sample_body !! "username" = Some "alice"
  ∧ sample_body !! "password" = Some "s3cret"
  ∧ sample_body !! "code" = Some sample_code
  ∧ status_code (app no_directory (PostSubmit sample_body) init_world).1 = 500
  ∧ Submission.id <$> table (app no_directory (PostSubmit sample_body) init_world).2 = [1]
  ∧ files (app no_directory (PostSubmit sample_body) init_world).2 !! "codes/1.py" = None.
Proof. vm_compute. by repeat split. Qed.

(** C1 (amended): for every request to POST /submit in which username,
    password and code are all non-empty, and for which the commit and the
    file write succeed (the database is up, [codes/] is writable, the
    platform codec encodes the code), the response is 200 with body
    [{"reservation_id": id}], where id is the generated primary key of
    exactly one newly inserted row, carried by no other row, and the file
    [codes/{id}.py] holds the submitted code text exactly, whatever
    characters it contains. *)
Theorem submit_stores_row_and_code env (body : gmap string string) w u p c :
  body !! "username" = Some u → body !! "password" = Some p →
  body !! "code" = Some c →
  u ≠ "" → p ≠ "" → c ≠ "" →
  db_up env = true → dir_writable env = true → encodable env c = true →
  let i := next_rowid (table w) in
  let r := app env (PostSubmit body) w in
  r.1 = JSONResponse 200 [("reservation_id", PyInt i)]
  ∧ (∃ row, table r.2 = table w ++ [row] ∧ Submission.id row = i)
  ∧ (∀ old, old ∈ table w → Submission.id old ≠ i)
  ∧ files r.2 !! code_path (Some i) = Some c.
Proof.
  intros Hu Hp Hc Hu0 Hp0 Hc0 Hdb Hdir Henc i r. subst i r.
  rewrite (app_accepted env body w (SubmissionCreate.mk u p c))
    by (by apply validate_present || done).
  simpl. rewrite Hdb, Hdir, Henc. simpl. repeat split.
  - by eexists.
  - intros old Hold Heq. apply next_rowid_fresh in Hold. lia.
  - apply lookup_insert_eq.
Qed.

Lemma submit_stores_row_and_code_witness :
  let r := app nominal (PostSubmit sample_body) init_world in
  r.1 = JSONResponse 200 [("reservation_id", PyInt 1)]
  ∧ (∃ row, table r.2 = [row] ∧ Submission.id row = 1)
  ∧ (∀ old, old ∈ table init_world → Submission.id old ≠ 1)
  ∧ files r.2 !! "codes/1.py" = Some sample_code.
Proof.
  apply (submit_stores_row_and_code nominal sample_body init_world
           "alice" "s3cret" sample_code); by vm_compute.
Defined.

(** ** C2: a submission with a missing field *)

(** C2: a request that omits [username] is answered with 422 by the
    request validation, not with the 400 "Missing required fields" that
    the handler raises and that its comment promises for an omitted
    required field: the request model makes the three fields required, so
    the handler and its check are never reached. *)
Lemma omitted_field_is_not_400 :
  no_username_body !! "username" = None
  ∧ app nominal (PostSubmit no_username_body) init_world
    = (mkResponse 422 (ValidationErrors ["username"]), init_world).
Proof. by vm_compute. Qed.

(** X14: for every request to POST /submit in which username, password or
    code is omitted or is the empty string, no row is inserted and no file
    is written (the durable state is unchanged); and when the three fields
    are present and one of them is the empty string, the response is 400
    with detail "Missing required fields". *)
Theorem missing_field_has_no_effect env (body : gmap string string) w f :
  f ∈ SubmissionCreate.fields →
  body !! f = None ∨ body !! f = Some "" →
  (app env (PostSubmit body) w).2 = w
  ∧ ((∀ g, g ∈ SubmissionCreate.fields → is_Some (body !! g)) →
     (app env (PostSubmit body) w).1
     = JSONResponse 400 [("detail", PyStr "Missing required fields")]).
Proof.
  intros Hf Hmiss.
  destruct (SubmissionCreate.validate body) as [missing|s] eqn:Hv.
  - rewrite (app_invalid _ _ _ _ Hv). split; [done|].
    intros Hall. exfalso.
    destruct (Hall "username") as [u Hu]; [set_unfold; tauto|].
    destruct (Hall "password") as [p Hp]; [set_unfold; tauto|].
    destruct (Hall "code") as [c Hc]; [set_unfold; tauto|].
    by rewrite (validate_present body u p c) in Hv.
  - assert (Hn : ¬ all_present s).
    { destruct (validate_inr body s Hv) as (Hu & Hp & Hc).
      intros (Hu0 & Hp0 & Hc0).
      repeat (apply elem_of_cons in Hf as [-> | Hf];
              [destruct Hmiss; congruence|]).
      by apply elem_of_nil in Hf. }
    by rewrite (app_rejected _ _ _ _ Hv Hn).
Qed.

Lemma missing_field_has_no_effect_witness :
  (app nominal (PostSubmit empty_code_body) init_world).2 = init_world
  ∧ ((∀ g, g ∈ SubmissionCreate.fields → is_Some (empty_code_body !! g)) →
     (app nominal (PostSubmit empty_code_body) init_world).1
     = JSONResponse 400 [("detail", PyStr "Missing required fields")]).
Proof.
  apply (missing_field_has_no_effect nominal empty_code_body init_world "code").
  - unfold SubmissionCreate.fields. set_solver.
  - right. by vm_compute.
Defined.

(** ** C5: the exception handlers *)

(** C5: a request for which the router finds no route is turned into
    [HTTPException(404)], for which [custom_404_handler] is called.  It
    returns a dictionary and not a response, so sending its result fails;
    [custom_500_handler] has the same defect, and the client receives the
    500 answer of the server with a plain-text body: neither the status
    404 nor the body [{"error": "Not Found"}] that the handlers were
    written to give. *)
Theorem unrouted_request_gets_plain_500 env m p w :
  matches_no_route p = true →
  custom_404_handler (Unrouted m p) (HTTPException 404 "Not Found")
    = ADict [("error", PyStr "Not Found")]
  ∧ send (custom_404_handler (Unrouted m p) (HTTPException 404 "Not Found"))
    = inl TypeError
  ∧ app env (Unrouted m p) w
    = (mkResponse 500 (TextBody "Internal Server Error"), w).
Proof. done. Qed.

Lemma unrouted_request_gets_plain_500_witness :
  custom_404_handler (Unrouted "GET" "/nope") (HTTPException 404 "Not Found")
    = ADict [("error", PyStr "Not Found")]
  ∧ send (custom_404_handler (Unrouted "GET" "/nope") (HTTPException 404 "Not Found"))
    = inl TypeError
  ∧ app nominal (Unrouted "GET" "/nope") init_world
    = (mkResponse 500 (TextBody "Internal Server Error"), init_world).
Proof.
  apply (unrouted_request_gets_plain_500 nominal "GET" "/nope" init_world).
  by vm_compute.
Defined.

(** ** What a request can do to the durable state *)

Lemma app_ok_inv env body w i w' :
  app env (PostSubmit body) w = (JSONResponse 200 [("reservation_id", PyInt i)], w') →
  ∃ s, SubmissionCreate.validate body = inr s ∧ all_present s
       ∧ db_up env = true ∧ dir_writable env = true
       ∧ encodable env (SubmissionCreate.code s) = true
       ∧ i = next_rowid (table w) ∧ w' = stored env s w.
Proof.
  intros H.
  destruct (SubmissionCreate.validate body) as [missing|s] eqn:Hv.
  - by rewrite (app_invalid _ _ _ _ Hv) in H.
  - destruct (decide (all_present s)) as [Ha|Hn].
    + rewrite (app_accepted _ _ _ _ Hv Ha) in H. exists s.
      destruct (db_up env), (dir_writable env), (encodable env _);
        simpl in H; try done.
      unfold ok_response, JSONResponse in H. simplify_eq. by split_and!.
    + by rewrite (app_rejected _ _ _ _ Hv Hn) in H.
Qed.

(** Every request leaves the state as it was, or in one of the three
    states of an accepted submission. *)
Lemma app_effect env request w :
  (app env request w).2 = w
  ∨ ∃ s, all_present s
         ∧ ((app env request w).2 = committed env s w
            ∨ (app env request w).2 = truncated env s w
            ∨ (app env request w).2 = stored env s w).
Proof.
  destruct request as [body|m p]; [|by left].
  destruct (SubmissionCreate.validate body) as [missing|s] eqn:Hv.
  - left. by rewrite (app_invalid _ _ _ _ Hv).
  - destruct (decide (all_present s)) as [Ha|Hn].
    + rewrite (app_accepted _ _ _ _ Hv Ha).
      destruct (db_up env), (dir_writable env), (encodable env _); simpl; eauto 10.
    + left. by rewrite (app_rejected _ _ _ _ Hv Hn).
Qed.

(** In each of them the table is the old one with at most one row added. *)
Lemma app_table env request w :
  table (app env request w).2 = table w
  ∨ ∃ s, table (app env request w).2 = table w ++ [new_row env s w].
Proof.
  destruct (app_effect env request w) as [-> | (s & _ & [-> | [-> | ->]])]; eauto.
Qed.

(** ** The files under [codes/] belong to rows of the table *)

Lemma files_tracked_init : files_tracked init_world.
Proof. intros p [x Hx]. simpl in Hx. by rewrite lookup_empty in Hx. Qed.

Lemma files_tracked_grow w f' h' row :
  files_tracked w →
  (∀ p, is_Some (f' !! p) → is_Some (files w !! p) ∨ p = code_path (Some (Submission.id row))) →
  files_tracked (mkWorld (table w ++ [row]) f' h').
Proof.
  intros Hw Hf p Hp. simpl in *.
  destruct (Hf p Hp) as [Hold | ->].
  - destruct (Hw p Hold) as (r & Hr & ->). exists r. split; [|done].
    apply elem_of_app. by left.
  - exists row. split; [|done]. apply elem_of_app. right. by apply list_elem_of_singleton.
Qed.

Lemma files_tracked_app env request w :
  files_tracked w → files_tracked (app env request w).2.
Proof.
  intros Hw.
  destruct (app_effect env request w) as [-> | (s & _ & [-> | [-> | ->]])];
    [done|..]; apply files_tracked_grow; try done; simpl.
  - auto.
  - intros p. rewrite lookup_insert. case_decide; auto.
  - intros p. rewrite lookup_insert. case_decide; auto.
Qed.

Lemma files_tracked_run reqs w :
  files_tracked w → files_tracked (run reqs w).2.
Proof.
  revert w. induction reqs as [|[env request] reqs IH]; intros w Hw; [done|].
  simpl. pose proof (files_tracked_app env request w Hw) as H1.
  destruct (app env request w) as [r w1]. simpl in H1.
  specialize (IH w1 H1). by destruct (run reqs w1).
Qed.


(** ** C3: the file write fails after the commit *)




(** ** C4: two submissions in a row *)

(** C4: when two submissions handled one after the other are both answered
    with a reservation id, the two ids differ, so do the two paths, and
    after the second one each file holds the code of its own submission. *)
Theorem sequential_submissions_are_independent
    env1 env2 (body1 body2 : gmap string string) w w1 w2 i1 i2 c1 c2 :
  body1 !! "code" = Some c1 → body2 !! "code" = Some c2 →
  app env1 (PostSubmit body1) w = (JSONResponse 200 [("reservation_id", PyInt i1)], w1) →
  app env2 (PostSubmit body2) w1 = (JSONResponse 200 [("reservation_id", PyInt i2)], w2) →
  i1 ≠ i2
  ∧ code_path (Some i1) ≠ code_path (Some i2)
  ∧ files w2 !! code_path (Some i1) = Some c1
  ∧ files w2 !! code_path (Some i2) = Some c2.
Proof.
  intros Hc1 Hc2 H1 H2.
  apply app_ok_inv in H1 as (s1 & Hv1 & _ & _ & _ & _ & -> & ->).
  apply app_ok_inv in H2 as (s2 & Hv2 & _ & _ & _ & _ & -> & ->).
  apply validate_inr in Hv1 as (_ & _ & Hc1').
  apply validate_inr in Hv2 as (_ & _ & Hc2').
  assert (c1 = SubmissionCreate.code s1) as -> by congruence.
  assert (c2 = SubmissionCreate.code s2) as -> by congruence.
  assert (Hlt : next_rowid (table w) < next_rowid (table (stored env1 s1 w))).
  { apply (next_rowid_fresh _ (new_row env1 s1 w)). simpl.
    apply elem_of_app. right. by apply list_elem_of_singleton. }
  assert (Hne : code_path (Some (next_rowid (table w)))
                ≠ code_path (Some (next_rowid (table (stored env1 s1 w))))).
  { intros Heq. apply code_path_inj in Heq. lia. }
  repeat split; [lia | done | |].
  - unfold stored at 1. simpl. unfold new_path at 1.
    rewrite lookup_insert_ne by done. apply lookup_insert_eq.
  - unfold stored at 1. simpl. apply lookup_insert_eq.
Qed.

Lemma sequential_submissions_are_independent_witness :
  1 ≠ 2
  ∧ code_path (Some 1) ≠ code_path (Some 2)
  ∧ files (run [(nominal, PostSubmit sample_body); (nominal, PostSubmit other_body)]
             init_world).2 !! code_path (Some 1) = Some sample_code
  ∧ files (run [(nominal, PostSubmit sample_body); (nominal, PostSubmit other_body)]
             init_world).2 !! code_path (Some 2) = Some "print(2)".
Proof.
  apply (sequential_submissions_are_independent nominal nominal
           sample_body other_body init_world
           (app nominal (PostSubmit sample_body) init_world).2);
    by vm_compute.
Defined.

(** ** C6: defaults at creation, and rows are never touched again *)

(** Whatever requests the service handles, the table afterwards is the
    table before followed by rows with the default status. *)
Lemma run_table_grows reqs w :
  ∃ added, table (run reqs w).2 = table w ++ added
           ∧ Forall (λ row, Submission.status row = "SUBMITTED") added.
Proof.
  revert w. induction reqs as [|[env request] reqs IH]; intros w.
  - exists []. simpl. by rewrite app_nil_r.
  - cbn [run]. pose proof (app_table env request w) as Ht.
    destruct (app env request w) as [r w1]. cbn [snd] in Ht.
    destruct (IH w1) as (added & Heq & Hall).
    destruct (run reqs w1) as [rs w2]. cbn [snd] in *.
    destruct Ht as [Ht | (s & Ht)]; rewrite Heq, Ht.
    + by exists added.
    + exists (new_row env s w :: added). split.
      * by rewrite <- app_assoc.
      * by constructor.
Qed.

(** C6: a valid submission whose commit succeeds inserts exactly one row,
    whose status is "SUBMITTED" and whose [created_at] and [updated_at]
    are the two readings of the clock taken for them while this request
    is handled.  The same holds of every row any request inserts: a
    request leaves the table as it is or adds one row with the default
    status and the clock readings of that request.  And no later request
    touches a row: after any sequence of requests the table still starts
    with the same rows, unchanged, followed by the rows inserted since,
    so no status is ever transitioned. *)
Theorem rows_get_defaults_and_stay env (body : gmap string string) w u p c :
  body !! "username" = Some u → body !! "password" = Some p →
  body !! "code" = Some c →
  u ≠ "" → p ≠ "" → c ≠ "" →
  db_up env = true →
  let row := Submission.mk (next_rowid (table w)) u p
               (utcnow_created env) (utcnow_updated env) "SUBMITTED" in
  let w1 := (app env (PostSubmit body) w).2 in
  table w1 = table w ++ [row]
  ∧ (∀ env' request' w',
       table (app env' request' w').2 = table w'
       ∨ ∃ row', table (app env' request' w').2 = table w' ++ [row']
                 ∧ has_defaults env' row')
  ∧ (∀ reqs, ∃ later,
       table (run reqs w1).2 = (table w ++ [row]) ++ later
       ∧ Forall (λ r, Submission.status r = "SUBMITTED") later).
Proof.
  intros Hu Hp Hc Hu0 Hp0 Hc0 Hdb row w1.
  assert (H1 : table w1 = table w ++ [row]).
  { subst w1 row.
    rewrite (app_accepted env body w (SubmissionCreate.mk u p c))
      by (by apply validate_present || done).
    rewrite Hdb. by destruct (dir_writable env), (encodable env _). }
  split_and!; [done | |].
  - intros env' request' w'.
    destruct (app_table env' request' w') as [Ht | (s & Ht)]; [by left|].
    right. by exists (new_row env' s w').
  - intros reqs. rewrite <- H1. apply run_table_grows.
Qed.

Lemma rows_get_defaults_and_stay_witness :
  let row := Submission.mk 1 "alice" "s3cret" 1000 1001 "SUBMITTED" in
  let w1 := (app nominal (PostSubmit sample_body) init_world).2 in
  table w1 = table init_world ++ [row]
  ∧ (∀ env' request' w',
       table (app env' request' w').2 = table w'
       ∨ ∃ row', table (app env' request' w').2 = table w' ++ [row']
                 ∧ has_defaults env' row')
  ∧ (∀ reqs, ∃ later,
       table (run reqs w1).2 = (table init_world ++ [row]) ++ later
       ∧ Forall (λ r, Submission.status r = "SUBMITTED") later).
Proof.
  apply (rows_get_defaults_and_stay nominal sample_body init_world
           "alice" "s3cret" sample_code); by vm_compute.
Defined.

(** ** C7: the file is written after the commit, at most once *)

Lemma writes_to_app p h1 h2 :
  writes_to p (h1 ++ h2) = (writes_to p h1 + writes_to p h2)%nat.
Proof. unfold writes_to. by rewrite List.filter_app, length_app. Qed.

Lemma writes_to_none p h :
  (∀ t, Wrote p t ∉ h) → writes_to p h = 0%nat.
Proof.
  unfold writes_to. induction h as [|e h IH]; intros Hno; [done|]. simpl.
  destruct (is_write_to p e) eqn:He.
  - destruct e as [| |q t|]; try done. simpl in He.
    apply bool_decide_eq_true in He as ->.
    exfalso. apply (Hno t). by left.
  - apply IH. intros t Ht. apply (Hno t). by right.
Qed.

Lemma commit_first_app h evs :
  commit_first h → commit_first evs → commit_first (h ++ evs).
Proof.
  intros Hh Hevs n p t Hn.
  apply lookup_app_Some in Hn as [Hn | [Hle Hn]].
  - destruct (Hh n p t Hn) as (i & m & Hm & Hi & ->).
    exists i, m. split_and!; [done | | done].
    by apply lookup_app_l_Some.
  - destruct (Hevs _ p t Hn) as (i & m & Hm & Hi & ->).
    exists i, (length h + m)%nat. split_and!; [lia | | done].
    rewrite lookup_app_r by lia. by replace (length h + m - length h)%nat with m by lia.
Qed.

Lemma commit_first_submission i (tail : list Event) :
  (∀ e, e ∈ tail → ∀ p t, e = Wrote p t → p = code_path (Some i)) →
  commit_first (Committed i :: tail).
Proof.
  intros Htail [|n] p t Hn; [done|]. simpl in Hn.
  exists i, 0%nat. split_and!; [lia | done |].
  eapply Htail; [|done]. by eapply list_elem_of_lookup_2.
Qed.

Lemma no_write_to_new_path w :
  commits_tracked w → commit_first (history w) →
  writes_to (new_path w) (history w) = 0%nat.
Proof.
  intros Hc Ho. apply writes_to_none. intros t Ht.
  apply list_elem_of_lookup in Ht as [n Hn].
  destruct (Ho n _ t Hn) as (i & m & _ & Hm & Heq).
  apply code_path_inj in Heq.
  destruct (Hc i) as (r & Hr & Hid); [by eapply list_elem_of_lookup_2|].
  apply next_rowid_fresh in Hr. lia.
Qed.

Lemma history_ok_init : history_ok init_world.
Proof.
  split_and!.
  - intros i Hi. by apply elem_of_nil in Hi.
  - by intros [|n] p t Hn.
  - intros p. simpl. unfold writes_to. simpl. lia.
Qed.

Lemma history_ok_grow env s w f' (tail : list Event) :
  history_ok w →
  (∀ e, e ∈ tail → (∀ i, e ≠ Committed i)
                   ∧ ∀ p t, e = Wrote p t → p = new_path w) →
  (writes_to (new_path w) tail ≤ 1)%nat →
  history_ok (mkWorld (table w ++ [new_row env s w]) f'
                      (history w ++ Committed (next_rowid (table w)) :: tail)).
Proof.
  intros (Hc & Ho & H1) Htail Hcount. split_and!; simpl.
  - intros i Hi. simpl in Hi.
    apply elem_of_app in Hi as [Hi | Hi].
    + destruct (Hc i Hi) as (r & Hr & Hid). exists r. split; [|done].
      apply elem_of_app. by left.
    + apply elem_of_cons in Hi as [Hi | Hi].
      * exists (new_row env s w). split; [|by simplify_eq].
        apply elem_of_app. right. by apply list_elem_of_singleton.
      * by destruct (Htail _ Hi) as [Hno _], (Hno i).
  - apply commit_first_app; [done|].
    apply commit_first_submission.
    intros e He p t Heq. destruct (Htail e He) as [_ Hw]. by apply (Hw p t).
  - intros p. rewrite writes_to_app.
    change (Committed ?i :: tail) with ([Committed i] ++ tail).
    rewrite writes_to_app. change (writes_to p [Committed _]) with 0%nat.
    destruct (decide (p = new_path w)) as [-> | Hp].
    + rewrite (no_write_to_new_path w Hc Ho). lia.
    + rewrite (writes_to_none p tail); [specialize (H1 p); lia|].
      intros t Ht. destruct (Htail _ Ht) as [_ Hw]. by apply Hp, (Hw p t).
Qed.

Lemma history_ok_app env request w :
  history_ok w → history_ok (app env request w).2.
Proof.
  intros Hw.
  destruct (app_effect env request w) as [-> | (s & _ & [-> | [-> | ->]])];
    [done|..]; apply history_ok_grow; try done.
  - intros e He. by apply elem_of_nil in He.
  - unfold writes_to. simpl. lia.
  - intros e He. tail_events He.
  - unfold writes_to. simpl. lia.
  - intros e He. tail_events He.
  - unfold writes_to. simpl. rewrite bool_decide_eq_true_2 by done. simpl. lia.
Qed.

Lemma history_ok_run reqs w : history_ok w → history_ok (run reqs w).2.
Proof.
  revert w. induction reqs as [|[env request] reqs IH]; intros w Hw; [done|].
  simpl. pose proof (history_ok_app env request w Hw) as H1.
  destruct (app env request w) as [r w1]. simpl in H1.
  specialize (IH w1 H1). by destruct (run reqs w1).
Qed.

(** C7, as stated, fails: when [codes/] is not writable the endpoint
    creates the row with id 1, and the file [codes/1.py] is written zero
    times, not once. *)
Lemma row_without_file_write :
  Submission.id <$> table (app no_directory (PostSubmit sample_body) init_world).2 = [1]
  ∧ history (app no_directory (PostSubmit sample_body) init_world).2 = [Committed 1]
  ∧ writes_to (code_path (Some 1))
      (history (app no_directory (PostSubmit sample_body) init_world).2) = 0%nat.
Proof. by vm_compute. Qed.

(** C7 (amended): in every state the service reaches from its start, each
    file is written at most once, every write goes to a path
    [codes/{id}.py] and comes after the commit of the row with that id;
    and a request answered with a reservation id has created the row with
    that id and written its file exactly once. *)
Theorem file_written_once_after_commit reqs :
  let w := (run reqs init_world).2 in
  (∀ p, writes_to p (history w) ≤ 1)%nat
  ∧ (∀ n p t, history w !! n = Some (Wrote p t) →
       ∃ i m, (m < n)%nat ∧ history w !! m = Some (Committed i)
              ∧ p = code_path (Some i))
  ∧ (∀ env (body : gmap string string) i w',
       app env (PostSubmit body) w
         = (JSONResponse 200 [("reservation_id", PyInt i)], w') →
       (∃ r, r ∈ table w' ∧ Submission.id r = i)
       ∧ writes_to (code_path (Some i)) (history w) = 0%nat
       ∧ writes_to (code_path (Some i)) (history w') = 1%nat).
Proof.
  intros w.
  assert (Hw : history_ok w) by apply history_ok_run, history_ok_init.
  destruct Hw as (Hc & Ho & H1).
  split_and!; try done.
  intros env body i w' Happ.
  apply app_ok_inv in Happ as (s & _ & _ & _ & _ & _ & -> & ->).
  pose proof (no_write_to_new_path w Hc Ho) as H0. unfold new_path in H0.
  split_and!; try done.
  - exists (new_row env s w). split; [|done]. simpl.
    apply elem_of_app. right. by apply list_elem_of_singleton.
  - simpl. rewrite writes_to_app, H0. unfold writes_to, new_path. simpl.
    by rewrite bool_decide_eq_true_2.
Qed.

(** ** C8 and C10: what the inserted row holds *)

(** The table after a submission that passed the check: one row more when
    the commit went through, the same table when it did not. *)
Lemma app_accepted_table env (body : gmap string string) w u p c :
  body !! "username" = Some u → body !! "password" = Some p →
  body !! "code" = Some c →
  u ≠ "" → p ≠ "" → c ≠ "" →
  table (app env (PostSubmit body) w).2
  = table w ++ (if db_up env
                then [Submission.mk (next_rowid (table w)) u p
                        (utcnow_created env) (utcnow_updated env) "SUBMITTED"]
                else []).
Proof.
  intros Hu Hp Hc Hu0 Hp0 Hc0.
  rewrite (app_accepted env body w (SubmissionCreate.mk u p c))
    by (by apply validate_present || done).
  destruct (db_up env), (dir_writable env), (encodable env _); simpl;
    by rewrite ?app_nil_r.
Qed.

(** C8: for every valid submission, the row it inserts (there is one as
    soon as the commit succeeds) holds in its password column the
    submitted password itself, unchanged. *)
Theorem password_stored_verbatim env (body : gmap string string) w u p c :
  body !! "username" = Some u → body !! "password" = Some p →
  body !! "code" = Some c →
  u ≠ "" → p ≠ "" → c ≠ "" →
  let w' := (app env (PostSubmit body) w).2 in
  (db_up env = true →
   ∃ row, table w' = table w ++ [row] ∧ Submission.password row = p)
  ∧ (∀ row, row ∈ table w' → row ∉ table w → Submission.password row = p).
Proof.
  intros Hu Hp Hc Hu0 Hp0 Hc0 w'. subst w'.
  rewrite (app_accepted_table env body w u p c) by done. split.
  - intros ->. by eexists.
  - intros row Hin Hnew. apply elem_of_app in Hin as [Hin | Hin]; [done|].
    destruct (db_up env); [|by apply elem_of_nil in Hin].
    by apply list_elem_of_singleton in Hin as ->.
Qed.

Lemma password_stored_verbatim_witness :
  let w' := (app nominal (PostSubmit sample_body) init_world).2 in
  (db_up nominal = true →
   ∃ row, table w' = table init_world ++ [row] ∧ Submission.password row = "s3cret")
  ∧ (∀ row, row ∈ table w' → row ∉ table init_world →
            Submission.password row = "s3cret").
Proof.
  apply (password_stored_verbatim nominal sample_body init_world
           "alice" "s3cret" sample_code); by vm_compute.
Defined.

(** C10: the table after a valid submission does not depend on the code
    text: two submissions that differ only in their code leave the same
    table, and the row inserted is made of the generated id, the username,
    the password, the two timestamps and the default status. *)
Theorem code_never_reaches_the_table
    env (body1 body2 : gmap string string) w u p c1 c2 :
  body1 !! "username" = Some u → body1 !! "password" = Some p →
  body1 !! "code" = Some c1 →
  body2 !! "username" = Some u → body2 !! "password" = Some p →
  body2 !! "code" = Some c2 →
  u ≠ "" → p ≠ "" → c1 ≠ "" → c2 ≠ "" →
  table (app env (PostSubmit body1) w).2 = table (app env (PostSubmit body2) w).2
  ∧ table (app env (PostSubmit body1) w).2
    = table w ++ (if db_up env
                  then [Submission.mk (next_rowid (table w)) u p
                          (utcnow_created env) (utcnow_updated env) "SUBMITTED"]
                  else []).
Proof.
  intros Hu1 Hp1 Hc1 Hu2 Hp2 Hc2 Hu0 Hp0 Hc10 Hc20.
  rewrite (app_accepted_table env body1 w u p c1) by done.
  by rewrite (app_accepted_table env body2 w u p c2) by done.
Qed.

Lemma code_never_reaches_the_table_witness :
  table (app nominal (PostSubmit sample_body) init_world).2
  = table (app nominal (PostSubmit (<["code" := "pass"]> sample_body)) init_world).2
  ∧ table (app nominal (PostSubmit sample_body) init_world).2
    = [Submission.mk 1 "alice" "s3cret" 1000 1001 "SUBMITTED"].
Proof.
  apply (code_never_reaches_the_table nominal sample_body
           (<["code" := "pass"]> sample_body) init_world
           "alice" "s3cret" sample_code "pass"); by vm_compute.
Defined.

(** ** C9: fields made of whitespace *)

Lemma isspace_nonempty s : isspace s = true → s ≠ "".
Proof. by destruct s. Qed.

(** C9: the check rejects only the empty string.  For every request in
    which username, password or code consists solely of whitespace (the
    other fields being non-empty), the handler does not raise its 400; the
    request is treated as any request with non-empty fields is: the row is
    inserted, with the whitespace value stored as it is, as soon as the
    commit goes through, and the file is written and the id returned as
    soon as the file write goes through as well. *)
Theorem whitespace_fields_pass_the_check env (body : gmap string string) w u p c :
  body !! "username" = Some u → body !! "password" = Some p →
  body !! "code" = Some c →
  (isspace u = true ∧ p ≠ "" ∧ c ≠ "")
  ∨ (u ≠ "" ∧ isspace p = true ∧ c ≠ "")
  ∨ (u ≠ "" ∧ p ≠ "" ∧ isspace c = true) →
  let i := next_rowid (table w) in
  let r := app env (PostSubmit body) w in
  (∀ e, (get_db (create_submission env (SubmissionCreate.mk u p c)) w).1 = inl e →
        e ≠ HTTPException 400 "Missing required fields")
  ∧ status_code r.1 ≠ 400
  ∧ (db_up env = true →
     table r.2 = table w ++ [Submission.mk i u p (utcnow_created env)
                               (utcnow_updated env) "SUBMITTED"])
  ∧ (db_up env = true → dir_writable env = true → encodable env c = true →
     r.1 = JSONResponse 200 [("reservation_id", PyInt i)]
     ∧ files r.2 !! code_path (Some i) = Some c).
Proof.
  intros Hu Hp Hc Hws i r. subst i r.
  assert (Ha : all_present (SubmissionCreate.mk u p c)).
  { destruct Hws as [(H1 & H2 & H3) | [(H1 & H2 & H3) | (H1 & H2 & H3)]];
      split_and!; simpl; auto using isspace_nonempty. }
  destruct Ha as (Hu0 & Hp0 & Hc0). simpl in Hu0, Hp0, Hc0.
  rewrite (app_accepted_table env body w u p c) by done.
  rewrite (app_accepted env body w (SubmissionCreate.mk u p c))
    by (by apply validate_present || done).
  rewrite (create_submission_accepted env (SubmissionCreate.mk u p c) w) by done.
  simpl. split_and!.
  - intros e. by destruct (db_up env), (dir_writable env), (encodable env c);
      simpl; intros [= <-].
  - by destruct (db_up env), (dir_writable env), (encodable env c).
  - by intros ->.
  - intros -> -> ->. simpl. split; [done|]. apply lookup_insert_eq.
Qed.

Lemma whitespace_fields_pass_the_check_witness :
  let r := app nominal (PostSubmit blank_body) init_world in
  (∀ e, (get_db (create_submission nominal (SubmissionCreate.mk " " " " " "))
           init_world).1 = inl e →
        e ≠ HTTPException 400 "Missing required fields")
  ∧ status_code r.1 ≠ 400
  ∧ (db_up nominal = true →
     table r.2 = table init_world ++ [Submission.mk 1 " " " " 1000 1001 "SUBMITTED"])
  ∧ (db_up nominal = true → dir_writable nominal = true →
     encodable nominal " " = true →
     r.1 = JSONResponse 200 [("reservation_id", PyInt 1)]
     ∧ files r.2 !! code_path (Some 1) = Some " ").
Proof.
  apply (whitespace_fields_pass_the_check nominal blank_body init_world " " " " " ");
    try (by vm_compute).
  left. by vm_compute.
Defined.

(** * Further properties of the service *)

(** ** Generated ids *)

Lemma max_rowid_snoc t r :
  max_rowid (t ++ [r])
  = Some (match max_rowid t with
          | None => Submission.id r
          | Some m => Z.max m (Submission.id r)
          end).
Proof.
  induction t as [|a t IH]; [done|].
  change (max_rowid ((a :: t) ++ [r]))
    with (Some (match max_rowid (t ++ [r]) with
                | None => Submission.id a
                | Some m => Z.max (Submission.id a) m
                end)).
  rewrite IH. simpl. destruct (max_rowid t); f_equal; lia.
Qed.

Lemma next_rowid_snoc t r :
  Submission.id r = next_rowid t → next_rowid (t ++ [r]) = next_rowid t + 1.
Proof.
  unfold next_rowid. rewrite max_rowid_snoc.
  destruct (max_rowid t); intros ->; lia.
Qed.

Lemma ids_app_table env request w :
  ids (app env request w).2 = ids w
  ∨ ids (app env request w).2 = ids w ++ [next_rowid (table w)].
Proof.
  unfold ids. destruct (app_table env request w) as [-> | (s & ->)]; [by left|].
  right. by rewrite fmap_app.
Qed.

Lemma next_rowid_not_in_ids w : next_rowid (table w) ∉ ids w.
Proof.
  unfold ids. intros (r & Hid & Hr)%list_elem_of_fmap.
  apply next_rowid_fresh in Hr. lia.
Qed.

(** X1: the primary key stays a key.  If the ids of the table are pairwise
    distinct, they still are after any sequence of requests, in any
    environments. *)
Theorem ids_stay_distinct reqs w : NoDup (ids w) → NoDup (ids (run reqs w).2).
Proof.
  revert w. induction reqs as [|[env request] reqs IH]; intros w Hw; [done|].
  simpl. pose proof (ids_app_table env request w) as Hstep.
  destruct (app env request w) as [r w1]. simpl in Hstep.
  assert (H1 : NoDup (ids w1)).
  { destruct Hstep as [-> | ->]; [done|].
    apply NoDup_app. split_and!; [done | | apply NoDup_singleton].
    intros x Hx ->%list_elem_of_singleton.
    by apply (next_rowid_not_in_ids w). }
  specialize (IH w1 H1). by destruct (run reqs w1).
Qed.

Lemma ids_stay_distinct_witness :
  NoDup (ids (run [(nominal, PostSubmit sample_body);
                   (no_directory, PostSubmit other_body);
                   (nominal, PostSubmit sample_body)] init_world).2).
Proof.
  apply (ids_stay_distinct _ init_world). vm_compute. apply NoDup_nil_2.
Defined.

Lemma counted_from_one_app env request w :
  ids w = seqZ 1 (Z.of_nat (length (table w)))
  ∧ next_rowid (table w) = 1 + Z.of_nat (length (table w)) →
  ids (app env request w).2
  = seqZ 1 (Z.of_nat (length (table (app env request w).2)))
  ∧ next_rowid (table (app env request w).2)
    = 1 + Z.of_nat (length (table (app env request w).2)).
Proof.
  intros [Hids Hnext]. unfold ids in *.
  destruct (app_table env request w) as [-> | (s & ->)]; [done|].
  rewrite fmap_app, length_app, next_rowid_snoc by done. simpl.
  replace (Z.of_nat (length (table w) + 1))
    with (Z.of_nat (S (length (table w)))) by lia.
  rewrite seqZ_S, Hids, Hnext. split; [done | lia].
Qed.

Lemma counted_from_one_run reqs w :
  ids w = seqZ 1 (Z.of_nat (length (table w)))
  ∧ next_rowid (table w) = 1 + Z.of_nat (length (table w)) →
  ids (run reqs w).2 = seqZ 1 (Z.of_nat (length (table (run reqs w).2)))
  ∧ next_rowid (table (run reqs w).2)
    = 1 + Z.of_nat (length (table (run reqs w).2)).
Proof.
  revert w. induction reqs as [|[env request] reqs IH]; intros w Hw; [done|].
  simpl. pose proof (counted_from_one_app env request w Hw) as H1.
  destruct (app env request w) as [r w1]. simpl in H1.
  specialize (IH w1 H1). by destruct (run reqs w1).
Qed.

(** X2: started on an empty table, the service numbers its rows 1, 2, 3,
    ... in the order of their commits, without gaps, whatever requests it
    handles and whether or not their file writes succeed; the next id is
    always the number of rows plus one. *)
Theorem ids_count_from_one reqs :
  let w := (run reqs init_world).2 in
  ids w = seqZ 1 (Z.of_nat (length (table w)))
  ∧ next_rowid (table w) = 1 + Z.of_nat (length (table w)).
Proof. by apply counted_from_one_run. Qed.

(** X3: a submission with the same username as an earlier one is accepted
    like any other.  Two valid submissions of the same body, handled one
    after the other with the database up, add two rows with the same
    username and password and consecutive ids, whatever happens to their
    file writes (as long as the ids stay below the largest rowid,
    2^63 - 1). *)
Theorem same_username_twice
    env1 env2 (body : gmap string string) w u p c :
  body !! "username" = Some u → body !! "password" = Some p →
  body !! "code" = Some c →
  u ≠ "" → p ≠ "" → c ≠ "" →
  db_up env1 = true → db_up env2 = true →
  next_rowid (table w) < 9223372036854775807 →
  let n := next_rowid (table w) in
  table (run [(env1, PostSubmit body); (env2, PostSubmit body)] w).2
  = table w
    ++ [Submission.mk n u p (utcnow_created env1) (utcnow_updated env1) "SUBMITTED";
        Submission.mk (n + 1) u p (utcnow_created env2) (utcnow_updated env2)
          "SUBMITTED"].
Proof.
  intros Hu Hp Hc Hu0 Hp0 Hc0 Hdb1 Hdb2 _ n. subst n. cbn [run].
  pose proof (app_accepted_table env1 body w u p c Hu Hp Hc Hu0 Hp0 Hc0) as H1.
  destruct (app env1 (PostSubmit body) w) as [r1 w1]. cbn [snd] in H1.
  pose proof (app_accepted_table env2 body w1 u p c Hu Hp Hc Hu0 Hp0 Hc0) as H2.
  destruct (app env2 (PostSubmit body) w1) as [r2 w2]. cbn [snd] in *.
  rewrite H2, H1, Hdb1, Hdb2, next_rowid_snoc by done.
  by rewrite <- app_assoc.
Qed.

Lemma same_username_twice_witness :
  table (run [(no_directory, PostSubmit sample_body);
              (nominal, PostSubmit sample_body)] init_world).2
  = table init_world
    ++ [Submission.mk 1 "alice" "s3cret" 1000 1001 "SUBMITTED";
        Submission.mk (1 + 1) "alice" "s3cret" 1000 1001 "SUBMITTED"].
Proof.
  apply (same_username_twice no_directory nominal sample_body init_world
           "alice" "s3cret" sample_code); by vm_compute.
Defined.

(** ** Failures before the file is touched *)

(** X4: when the commit fails, a valid submission leaves nothing behind:
    the answer is the 500 of the server, the table, the files and the
    history are what they were.  In particular no file is written for a
    row that was not committed. *)
Theorem storage_failure_has_no_effect env (body : gmap string string) w u p c :
  body !! "username" = Some u → body !! "password" = Some p →
  body !! "code" = Some c →
  u ≠ "" → p ≠ "" → c ≠ "" →
  db_up env = false →
  (get_db (create_submission env (SubmissionCreate.mk u p c)) w).1
    = inl OperationalError
  ∧ app env (PostSubmit body) w
    = (mkResponse 500 (TextBody "Internal Server Error"), w).
Proof.
  intros Hu Hp Hc Hu0 Hp0 Hc0 Hdb.
  rewrite (app_accepted env body w (SubmissionCreate.mk u p c))
    by (by apply validate_present || done).
  rewrite (create_submission_accepted env (SubmissionCreate.mk u p c) w) by done.
  by rewrite Hdb.
Qed.

Lemma storage_failure_has_no_effect_witness :
  (get_db (create_submission db_down
             (SubmissionCreate.mk "bob" "hunter2" "print(2)")) init_world).1
    = inl OperationalError
  ∧ app db_down (PostSubmit other_body) init_world
    = (mkResponse 500 (TextBody "Internal Server Error"), init_world).
Proof.
  apply (storage_failure_has_no_effect db_down other_body init_world
           "bob" "hunter2" "print(2)"); by vm_compute.
Defined.

(** ** What an answer tells the client *)

(** X5: a 200 to a submission is never sent in vain.  Whenever a POST
    /submit is answered with status 200, its three fields were non-empty,
    the body of the answer is the reservation with the generated id, the
    table holds the row with that id and the submitted username and
    password, and [codes/{id}.py] holds the submitted code. *)
Theorem ok_means_stored env (body : gmap string string) w :
  status_code (app env (PostSubmit body) w).1 = 200 →
  ∃ u p c,
    body !! "username" = Some u ∧ body !! "password" = Some p
    ∧ body !! "code" = Some c
    ∧ u ≠ "" ∧ p ≠ "" ∧ c ≠ ""
    ∧ (app env (PostSubmit body) w).1
      = JSONResponse 200 [("reservation_id", PyInt (next_rowid (table w)))]
    ∧ Submission.mk (next_rowid (table w)) u p
        (utcnow_created env) (utcnow_updated env) "SUBMITTED"
      ∈ table (app env (PostSubmit body) w).2
    ∧ files (app env (PostSubmit body) w).2
        !! code_path (Some (next_rowid (table w)))
      = Some c.
Proof.
  destruct (SubmissionCreate.validate body) as [missing|s] eqn:Hv.
  { by rewrite (app_invalid _ _ _ _ Hv). }
  destruct (decide (all_present s)) as [Ha|Hn].
  2: { by rewrite (app_rejected _ _ _ _ Hv Hn). }
  rewrite (app_accepted _ _ _ _ Hv Ha).
  destruct (validate_inr body s Hv) as (Hu & Hp & Hc).
  destruct Ha as (Hu0 & Hp0 & Hc0).
  destruct (db_up env), (dir_writable env), (encodable env _); simpl; try done.
  intros _. exists (SubmissionCreate.username s),
    (SubmissionCreate.password s), (SubmissionCreate.code s).
  split_and!; try done.
  - apply elem_of_app. right. by apply list_elem_of_singleton.
  - apply lookup_insert_eq.
Qed.

Lemma ok_means_stored_witness :
  ∃ u p c,
    sample_body !! "username" = Some u ∧ sample_body !! "password" = Some p
    ∧ sample_body !! "code" = Some c
    ∧ u ≠ "" ∧ p ≠ "" ∧ c ≠ ""
    ∧ (app nominal (PostSubmit sample_body) init_world).1
      = JSONResponse 200 [("reservation_id", PyInt (next_rowid (table init_world)))]
    ∧ Submission.mk (next_rowid (table init_world)) u p
        (utcnow_created nominal) (utcnow_updated nominal) "SUBMITTED"
      ∈ table (app nominal (PostSubmit sample_body) init_world).2
    ∧ files (app nominal (PostSubmit sample_body) init_world).2
        !! code_path (Some (next_rowid (table init_world)))
      = Some c.
Proof. apply (ok_means_stored nominal sample_body init_world). by vm_compute. Defined.

(** X6: the dictionaries returned by [custom_404_handler] and
    [custom_500_handler] never reach a client: no answer of the service
    has a JSON body made of the single key "error". *)
Theorem handler_dictionaries_never_sent env request w v :
  content (app env request w).1 ≠ JsonBody [("error", v)].
Proof.
  destruct request as [body|m q]; [|done].
  destruct (SubmissionCreate.validate body) as [missing|s] eqn:Hv.
  { by rewrite (app_invalid _ _ _ _ Hv). }
  destruct (decide (all_present s)) as [Ha|Hn].
  - rewrite (app_accepted _ _ _ _ Hv Ha).
    by destruct (db_up env), (dir_writable env), (encodable env _).
  - by rewrite (app_rejected _ _ _ _ Hv Hn).
Qed.

(** X7: for a body that carries the three fields, the answer is 400
    exactly when one of them is the empty string; nothing else about the
    request, the state or the environment leads to a 400. *)
Theorem bad_request_iff_empty_field env (body : gmap string string) w u p c :
  body !! "username" = Some u → body !! "password" = Some p →
  body !! "code" = Some c →
  status_code (app env (PostSubmit body) w).1 = 400 ↔ u = "" ∨ p = "" ∨ c = "".
Proof.
  intros Hu Hp Hc.
  pose proof (validate_present body u p c Hu Hp Hc) as Hv.
  destruct (decide (all_present (SubmissionCreate.mk u p c))) as [Ha|Hn].
  - rewrite (app_accepted _ _ _ _ Hv Ha). destruct Ha as (Hu0 & Hp0 & Hc0).
    simpl in *. split; [|by intros [? | [? | ?]]].
    by destruct (db_up env), (dir_writable env), (encodable env c).
  - rewrite (app_rejected _ _ _ _ Hv Hn). split; [intros _|done].
    unfold all_present in Hn. simpl in Hn.
    destruct (decide (u = "")); [by left|].
    destruct (decide (p = "")); [by right; left|].
    destruct (decide (c = "")); [by right; right|].
    by destruct Hn.
Qed.

Lemma bad_request_iff_empty_field_witness :
  status_code (app nominal (PostSubmit empty_code_body) init_world).1 = 400
  ↔ "alice" = "" ∨ "s3cret" = "" ∨ "" = "".
Proof.
  apply (bad_request_iff_empty_field nominal empty_code_body init_world
           "alice" "s3cret" ""); by vm_compute.
Defined.

(** ** What a request can change *)

(** X8: only an accepted submission has effects.  If a request changes
    the durable state at all, it was a POST /submit whose three fields are
    non-empty, handled with the database up, and it added exactly one row
    to the table; the files changed only if the directory was writable. *)
Theorem effects_need_an_accepted_submission env request w :
  (app env request w).2 ≠ w →
  ∃ (body : gmap string string) u p c,
    request = PostSubmit body
    ∧ body !! "username" = Some u ∧ body !! "password" = Some p
    ∧ body !! "code" = Some c
    ∧ u ≠ "" ∧ p ≠ "" ∧ c ≠ ""
    ∧ db_up env = true
    ∧ table (app env request w).2
      = table w ++ [Submission.mk (next_rowid (table w)) u p
                      (utcnow_created env) (utcnow_updated env) "SUBMITTED"]
    ∧ (files (app env request w).2 ≠ files w → dir_writable env = true).
Proof.
  destruct request as [body|m q]; [|intros Hne; by destruct Hne].
  destruct (SubmissionCreate.validate body) as [missing|s] eqn:Hv.
  { rewrite (app_invalid _ _ _ _ Hv). intros Hne. by destruct Hne. }
  destruct (decide (all_present s)) as [Ha|Hn].
  2: { rewrite (app_rejected _ _ _ _ Hv Hn). intros Hne. by destruct Hne. }
  rewrite (app_accepted _ _ _ _ Hv Ha).
  destruct (validate_inr body s Hv) as (Hu & Hp & Hc).
  destruct Ha as (Hu0 & Hp0 & Hc0).
  intros Hchg. exists body, (SubmissionCreate.username s),
    (SubmissionCreate.password s), (SubmissionCreate.code s).
  destruct (db_up env), (dir_writable env), (encodable env _);
    simpl in *; by split_and!.
Qed.

Lemma effects_need_an_accepted_submission_witness :
  ∃ (body : gmap string string) u p c,
    PostSubmit sample_body = PostSubmit body
    ∧ body !! "username" = Some u ∧ body !! "password" = Some p
    ∧ body !! "code" = Some c
    ∧ u ≠ "" ∧ p ≠ "" ∧ c ≠ ""
    ∧ db_up no_directory = true
    ∧ table (app no_directory (PostSubmit sample_body) init_world).2
      = table init_world
        ++ [Submission.mk (next_rowid (table init_world)) u p
              (utcnow_created no_directory) (utcnow_updated no_directory)
              "SUBMITTED"]
    ∧ (files (app no_directory (PostSubmit sample_body) init_world).2
         ≠ files init_world → dir_writable no_directory = true).
Proof.
  apply (effects_need_an_accepted_submission no_directory
           (PostSubmit sample_body) init_world).
  by vm_compute.
Defined.

(** ** Files *)

Lemma file_of_a_row_app env request w r :
  r ∈ table w →
  r ∈ table (app env request w).2
  ∧ files (app env request w).2 !! code_path (Some (Submission.id r))
    = files w !! code_path (Some (Submission.id r)).
Proof.
  intros Hr.
  assert (Hne : new_path w ≠ code_path (Some (Submission.id r))).
  { intros Heq%code_path_inj. apply next_rowid_fresh in Hr. lia. }
  destruct (app_effect env request w) as [-> | (s & _ & [-> | [-> | ->]])];
    simpl; rewrite ?lookup_insert_ne by done;
    (split; [|done]); try done; apply elem_of_app; by left.
Qed.

(** X9: once a request has been handled, the file of its row is never
    touched again.  For a row of the table, whatever is at
    [codes/{id}.py] (the code, an empty file, or nothing) is still there,
    unchanged, after any sequence of later requests: a stored code is
    never overwritten, and an orphan row never gets its file. *)
Theorem file_of_a_row_is_frozen reqs w r :
  r ∈ table w →
  files (run reqs w).2 !! code_path (Some (Submission.id r))
  = files w !! code_path (Some (Submission.id r)).
Proof.
  revert w. induction reqs as [|[env request] reqs IH]; intros w Hr; [done|].
  cbn [run].
  destruct (file_of_a_row_app env request w r Hr) as [Hr1 Hf1].
  destruct (app env request w) as [rsp w1]. cbn [snd] in *.
  specialize (IH w1 Hr1). destruct (run reqs w1) as [rs w2]. cbn [snd] in *.
  by rewrite IH.
Qed.

Lemma file_of_a_row_is_frozen_witness :
  files (run [(nominal, PostSubmit other_body); (nominal, PostSubmit sample_body)]
           (app no_directory (PostSubmit sample_body) init_world).2).2
    !! code_path (Some (Submission.id
                          (Submission.mk 1 "alice" "s3cret" 1000 1001 "SUBMITTED")))
  = files (app no_directory (PostSubmit sample_body) init_world).2
      !! code_path (Some (Submission.id
                            (Submission.mk 1 "alice" "s3cret" 1000 1001 "SUBMITTED"))).
Proof.
  apply (file_of_a_row_is_frozen _
           (app no_directory (PostSubmit sample_body) init_world).2).
  vm_compute. apply list_elem_of_here.
Defined.

(** X10: no file without a row.  Started with an empty table and no
    files, the service only ever has files at paths [codes/{id}.py] where
    id is the id of a row of the table. *)
Theorem every_file_has_a_row reqs p :
  is_Some (files (run reqs init_world).2 !! p) →
  ∃ r, r ∈ table (run reqs init_world).2
       ∧ p = code_path (Some (Submission.id r)).
Proof. apply (files_tracked_run reqs init_world), files_tracked_init. Qed.

Lemma every_file_has_a_row_witness :
  ∃ r, r ∈ table (run [(nominal, PostSubmit sample_body)] init_world).2
       ∧ "codes/1.py" = code_path (Some (Submission.id r)).
Proof.
  apply (every_file_has_a_row [(nominal, PostSubmit sample_body)] "codes/1.py").
  exists sample_code. vm_compute. reflexivity.
Defined.

(** X11: distinct ids never share a file: the rendering of the id in
    [codes/{id}.py] tells any two integers apart. *)
Theorem paths_do_not_collide (i j : Z) :
  i ≠ j → code_path (Some i) ≠ code_path (Some j).
Proof. intros Hne Heq. by apply Hne, code_path_inj. Qed.

Lemma paths_do_not_collide_witness : code_path (Some 1) ≠ code_path (Some (-1)).
Proof. apply (paths_do_not_collide 1 (-1)). lia. Defined.

Lemma closed_after_open_app h evs :
  closed_after_open h → closed_after_open evs → closed_after_open (h ++ evs).
Proof.
  intros Hh Hevs n p Hn.
  apply lookup_app_Some in Hn as [Hn | [Hle Hn]].
  - destruct (Hh n p Hn) as [Hc | [[t Ht] Hc]].
    + left. by apply lookup_app_l_Some.
    + right. split; [exists t|]; by apply lookup_app_l_Some.
  - assert (Hshift : ∀ k, (h ++ evs) !! (k + n)%nat
                          = evs !! (k + (n - length h))%nat).
    { intros k. rewrite lookup_app_r by lia. f_equal. lia. }
    pose proof (Hshift 1%nat) as H1. pose proof (Hshift 2%nat) as H2.
    simpl in H1, H2.
    destruct (Hevs _ p Hn) as [Hc | [[t Ht] Hc]].
    + left. by rewrite H1.
    + right. split; [exists t; by rewrite H1|]. by rewrite H2.
Qed.

Lemma closed_after_open_submission i q (tail : list Event) :
  tail = [] ∨ tail = [Opened q; Closed q]
  ∨ (∃ t, tail = [Opened q; Wrote q t; Closed q]) →
  closed_after_open (Committed i :: tail).
Proof.
  intros [-> | [-> | [t ->]]] n p Hn.
  - by destruct n as [|[|n]].
  - destruct n as [|[|[|n]]]; simplify_eq/=. by left.
  - destruct n as [|[|[|[|n]]]]; simplify_eq/=. right. eauto.
Qed.

Lemma closed_after_open_step env request w :
  closed_after_open (history w) →
  closed_after_open (history (app env request w).2).
Proof.
  intros Hw.
  destruct (app_effect env request w) as [-> | (s & _ & [-> | [-> | ->]])];
    [done|..]; simpl; apply closed_after_open_app; try done;
    apply (closed_after_open_submission _ (new_path w)); eauto.
Qed.

(** X12: every file the service opens it also closes.  In the history of
    any run from the start, each [open] is followed by the [close] of the
    same file, directly when the write raised and after the single write
    otherwise: the [with] block leaves no file open. *)
Theorem opened_files_are_closed reqs :
  closed_after_open (history (run reqs init_world).2).
Proof.
  assert (H : ∀ w, closed_after_open (history w) →
                   closed_after_open (history (run reqs w).2)).
  { induction reqs as [|[env request] reqs IH]; intros w Hw; [done|].
    cbn [run]. pose proof (closed_after_open_step env request w Hw) as H1.
    destruct (app env request w) as [r w1]. cbn [snd] in H1.
    specialize (IH w1 H1). by destruct (run reqs w1). }
  apply H. by intros [|n] p Hn.
Qed.

(** ** Request validation *)

(** X13: a body that lacks one of the three fields of [SubmissionCreate]
    never reaches the handler: whatever the other fields hold, the answer
    is 422, it names the missing field, and the durable state is
    unchanged. *)
Theorem omitted_field_is_unprocessable env (body : gmap string string) w f :
  f ∈ SubmissionCreate.fields → body !! f = None →
  ∃ missing, f ∈ missing
    ∧ app env (PostSubmit body) w = (mkResponse 422 (ValidationErrors missing), w).
Proof.
  intros Hf Hnone.
  destruct (validate_omitted body f Hf Hnone) as (missing & Hv & Hin).
  exists missing. split; [done|]. by apply app_invalid.
Qed.

Lemma omitted_field_is_unprocessable_witness :
  ∃ missing, "username" ∈ missing
    ∧ app nominal (PostSubmit no_username_body) init_world
      = (mkResponse 422 (ValidationErrors missing), init_world).
Proof.
  apply (omitted_field_is_unprocessable nominal no_username_body init_world "username").
  - vm_compute. apply list_elem_of_here.
  - by vm_compute.
Defined.
